(** * The configuration store of the streaming-avatar demo

    A shallow embedding of [stores/configurationStore.ts]: the state record,
    the nineteen setters, the derived queries, the session-options builder,
    the reset, the validator and the [partialize] snapshot handed to the
    persistence middleware, followed by the properties of each.

    Conventions.
    - A JavaScript [string] is a [string]; it is falsy exactly when empty.
    - The two [number] fields hold integer minutes and an integer mode, and
      are modelled in [Z].
    - An object literal is the ordered list of its own properties.  A
      property whose value is [undefined] is still a property of the
      object; it only disappears when the object is serialised to JSON.
    - [voiceParams : Record<string, unknown>] is a finite map with string
      keys; the store looks at nothing but the number of its keys.
    - The persistence middleware is not part of the sources; its JSON
      document and its merge are modelled, and marked as such. *)

From Stdlib Require Import ZArith List Bool Lia.
From stdpp Require Import base strings gmap.
Import ListNotations.

Local Open Scope string_scope.

(* ===================================================================== *)
(** ** Data model *)
(* ===================================================================== *)

(** Modelled from the spec: the declaration of [StreamProviderType] in
    [types/streaming.types] is not among the sources; the store casts its
    initial value to ['agora' | 'livekit' | 'trtc']. *)
Inductive StreamProviderType := agora | livekit | trtc.

(** Modelled from the spec: the declaration of [AuthMethod] in
    [types/api.schemas] is not among the sources; the spec gives
    [token | apiKey] and the panel writes exactly these two values. *)
Inductive AuthMethod := token | apiKey.

(** Modelled from the spec: the declaration of [SceneMode] in
    [types/api.schemas] is not among the sources; the spec gives
    [fast_dialogue | meeting]. *)
Inductive SceneMode := fast_dialogue | meeting.

(** Modelled from the spec: the declaration of [E2EType] in
    [types/api.schemas] is not among the sources; the spec gives the
    single value [openai]. *)
Inductive E2EType := openai.

(** ['low' | 'medium' | 'high'] *)
Inductive Quality := low | medium | high.

(** The values of a free-form voice parameter ([unknown]): the JSON
    scalars, and [undefined], which stands for every value that
    [JSON.stringify] leaves out of an object. *)
Inductive ParamValue :=
  | PNull
  | PBool (b : bool)
  | PNumber (n : Z)
  | PString (s : string)
  | PUndefined.

(** The data part of [ConfigurationState], in the order of the interface.
    [sceneMode : SceneMode | ''] and [e2eType : E2EType | ''] are options
    whose [None] is the empty string. *)
Record ConfigurationState := mkState {
  selectedProvider : StreamProviderType;
  openapiHost : string;
  openapiCredential : string;
  authMethod : AuthMethod;
  avatarId : string;
  voiceId : string;
  knowledgeId : string;
  sessionDuration : Z;
  modeType : Z;
  language : string;
  sceneMode : option SceneMode;
  e2eType : option E2EType;
  backgroundUrl : string;
  voiceUrl : string;
  voiceParams : gmap string ParamValue;
  videoEnabled : bool;
  audioEnabled : bool;
  videoQuality : Quality;
  audioQuality : Quality
}.

(** The run-time strings behind the enumerations. *)
Definition provider_string (p : StreamProviderType) : string :=
  match p with agora => "agora" | livekit => "livekit" | trtc => "trtc" end.

Definition sceneMode_string (m : option SceneMode) : string :=
  match m with
  | None => ""
  | Some fast_dialogue => "fast_dialogue"
  | Some meeting => "meeting"
  end.

Definition e2eType_string (t : option E2EType) : string :=
  match t with None => "" | Some openai => "openai" end.

(* ===================================================================== *)
(** ** JavaScript values and operators used by the store *)
(* ===================================================================== *)

Inductive JsValue :=
  | JsUndefined
  | JsString (s : string)
  | JsNumber (n : Z)
  | JsRecord (m : gmap string ParamValue).

(** An object literal: its own properties, in source order. *)
Definition JsObject := list (string * JsValue).

(** [Object.keys(o)] *)
Definition obj_keys (o : JsObject) : list string := map fst o.

(** [o[k]] for an own property; [None] when [o] has no such property. *)
Fixpoint obj_get (k : string) (o : JsObject) : option JsValue :=
  match o with
  | [] => None
  | (k', v) :: o' => if String.eqb k k' then Some v else obj_get k o'
  end.

(** [k in o] *)
Definition obj_has (k : string) (o : JsObject) : bool :=
  match obj_get k o with Some _ => true | None => false end.

Definition is_defined (v : JsValue) : bool :=
  match v with JsUndefined => false | _ => true end.

(** The properties that survive [JSON.stringify]: those whose value is not
    [undefined]. *)
Definition json_entries (o : JsObject) : JsObject :=
  List.filter (fun kv => is_defined (snd kv)) o.

(** Truthiness of a string: [!!s]. *)
Definition truthy (s : string) : bool :=
  match s with
  | EmptyString => false
  | String _ _ => true
  end.

(** [a && b] on strings: the first falsy operand, else the last one. *)
Definition js_and (a b : string) : string := if truthy a then b else a.

(** [a || b] on strings. *)
Definition js_or (a b : string) : string := if truthy a then a else b.

(** [s || undefined] *)
Definition or_undefined (s : string) : JsValue :=
  if truthy s then JsString s else JsUndefined.

(* ===================================================================== *)
(** ** Getters and utilities *)
(* ===================================================================== *)

Definition isApiConfigured (state : ConfigurationState) : bool :=
  truthy (js_and (openapiHost state) (openapiCredential state)).

Definition isAvatarConfigured (state : ConfigurationState) : bool :=
  truthy (avatarId state).

Definition isFullyConfigured (state : ConfigurationState) : bool :=
  truthy (js_and (js_and (openapiHost state) (openapiCredential state))
                 (avatarId state)).

Definition getSessionOptions (state : ConfigurationState) : JsObject :=
  [ ("avatar_id", JsString (avatarId state));
    ("duration", JsNumber (sessionDuration state));
    ("knowledge_id", or_undefined (knowledgeId state));
    ("voice_id", or_undefined (voiceId state));
    ("voice_url", or_undefined (voiceUrl state));
    ("language", or_undefined (language state));
    ("mode_type", JsNumber (modeType state));
    ("background_url", or_undefined (backgroundUrl state));
    ("voice_params",
       if (0 <? size (voiceParams state))%nat
       then JsRecord (voiceParams state) else JsUndefined);
    ("stream_type", JsString (provider_string (selectedProvider state)));
    ("scene_mode", or_undefined (sceneMode_string (sceneMode state)));
    ("e2e_type", or_undefined (e2eType_string (e2eType state))) ].

(* ===================================================================== *)
(** ** Validation *)
(* ===================================================================== *)

Record ValidationResult := mkResult {
  isValid : bool;
  errors : list string
}.

(** [errors.push(msg)] *)
Definition push (errors : list string) (msg : string) : list string :=
  errors ++ [msg].

Definition validateConfiguration (state : ConfigurationState)
  : ValidationResult :=
  let errors : list string := [] in
  let errors :=
    if negb (truthy (openapiHost state))
    then push errors "OpenAPI host is required" else errors in
  let errors :=
    if negb (truthy (openapiCredential state))
    then push errors
           (match authMethod state with
            | token => "OpenAPI token is required"
            | _ => "API key is required"
            end)
    else errors in
  let errors :=
    if negb (truthy (avatarId state))
    then push errors "Avatar ID is required" else errors in
  let errors :=
    if (sessionDuration state <=? 0)%Z
    then push errors "Session duration must be greater than 0" else errors in
  let errors :=
    if ((modeType state <? 1) || (modeType state >? 3))%Z
    then push errors "Mode type must be between 1 and 3" else errors in
  {| isValid := Nat.eqb (length errors) 0; errors := errors |}.

(* ===================================================================== *)
(** ** Partial states, [set] and the actions *)
(* ===================================================================== *)

(** The names of the data fields. *)
Inductive Key :=
  | K_selectedProvider | K_openapiHost | K_openapiCredential | K_authMethod
  | K_avatarId | K_voiceId | K_knowledgeId | K_sessionDuration | K_modeType
  | K_language | K_sceneMode | K_e2eType | K_backgroundUrl | K_voiceUrl
  | K_voiceParams | K_videoEnabled | K_audioEnabled | K_videoQuality
  | K_audioQuality.

(** One property [key: value] of a partial state object; the key fixes the
    type of the value. *)
Inductive Entry :=
  | P_selectedProvider (v : StreamProviderType)
  | P_openapiHost (v : string)
  | P_openapiCredential (v : string)
  | P_authMethod (v : AuthMethod)
  | P_avatarId (v : string)
  | P_voiceId (v : string)
  | P_knowledgeId (v : string)
  | P_sessionDuration (v : Z)
  | P_modeType (v : Z)
  | P_language (v : string)
  | P_sceneMode (v : option SceneMode)
  | P_e2eType (v : option E2EType)
  | P_backgroundUrl (v : string)
  | P_voiceUrl (v : string)
  | P_voiceParams (v : gmap string ParamValue)
  | P_videoEnabled (v : bool)
  | P_audioEnabled (v : bool)
  | P_videoQuality (v : Quality)
  | P_audioQuality (v : Quality).

Definition key_of (p : Entry) : Key :=
  match p with
  | P_selectedProvider _ => K_selectedProvider
  | P_openapiHost _ => K_openapiHost
  | P_openapiCredential _ => K_openapiCredential
  | P_authMethod _ => K_authMethod
  | P_avatarId _ => K_avatarId
  | P_voiceId _ => K_voiceId
  | P_knowledgeId _ => K_knowledgeId
  | P_sessionDuration _ => K_sessionDuration
  | P_modeType _ => K_modeType
  | P_language _ => K_language
  | P_sceneMode _ => K_sceneMode
  | P_e2eType _ => K_e2eType
  | P_backgroundUrl _ => K_backgroundUrl
  | P_voiceUrl _ => K_voiceUrl
  | P_voiceParams _ => K_voiceParams
  | P_videoEnabled _ => K_videoEnabled
  | P_audioEnabled _ => K_audioEnabled
  | P_videoQuality _ => K_videoQuality
  | P_audioQuality _ => K_audioQuality
  end.

(** [state[k]], together with its key. *)
Definition read (k : Key) (state : ConfigurationState) : Entry :=
  match k with
  | K_selectedProvider => P_selectedProvider (selectedProvider state)
  | K_openapiHost => P_openapiHost (openapiHost state)
  | K_openapiCredential => P_openapiCredential (openapiCredential state)
  | K_authMethod => P_authMethod (authMethod state)
  | K_avatarId => P_avatarId (avatarId state)
  | K_voiceId => P_voiceId (voiceId state)
  | K_knowledgeId => P_knowledgeId (knowledgeId state)
  | K_sessionDuration => P_sessionDuration (sessionDuration state)
  | K_modeType => P_modeType (modeType state)
  | K_language => P_language (language state)
  | K_sceneMode => P_sceneMode (sceneMode state)
  | K_e2eType => P_e2eType (e2eType state)
  | K_backgroundUrl => P_backgroundUrl (backgroundUrl state)
  | K_voiceUrl => P_voiceUrl (voiceUrl state)
  | K_voiceParams => P_voiceParams (voiceParams state)
  | K_videoEnabled => P_videoEnabled (videoEnabled state)
  | K_audioEnabled => P_audioEnabled (audioEnabled state)
  | K_videoQuality => P_videoQuality (videoQuality state)
  | K_audioQuality => P_audioQuality (audioQuality state)
  end.

(** [state[key] = value]: one field replaced, the eighteen others kept. *)
Definition assign (state : ConfigurationState) (p : Entry)
  : ConfigurationState :=
  let 'mkState sp oh oc am ai vi ki sd mt la sm et bu vu vp ve ae vq aq :=
    state in
  match p with
  | P_selectedProvider v =>
      mkState v oh oc am ai vi ki sd mt la sm et bu vu vp ve ae vq aq
  | P_openapiHost v =>
      mkState sp v oc am ai vi ki sd mt la sm et bu vu vp ve ae vq aq
  | P_openapiCredential v =>
      mkState sp oh v am ai vi ki sd mt la sm et bu vu vp ve ae vq aq
  | P_authMethod v =>
      mkState sp oh oc v ai vi ki sd mt la sm et bu vu vp ve ae vq aq
  | P_avatarId v =>
      mkState sp oh oc am v vi ki sd mt la sm et bu vu vp ve ae vq aq
  | P_voiceId v =>
      mkState sp oh oc am ai v ki sd mt la sm et bu vu vp ve ae vq aq
  | P_knowledgeId v =>
      mkState sp oh oc am ai vi v sd mt la sm et bu vu vp ve ae vq aq
  | P_sessionDuration v =>
      mkState sp oh oc am ai vi ki v mt la sm et bu vu vp ve ae vq aq
  | P_modeType v =>
      mkState sp oh oc am ai vi ki sd v la sm et bu vu vp ve ae vq aq
  | P_language v =>
      mkState sp oh oc am ai vi ki sd mt v sm et bu vu vp ve ae vq aq
  | P_sceneMode v =>
      mkState sp oh oc am ai vi ki sd mt la v et bu vu vp ve ae vq aq
  | P_e2eType v =>
      mkState sp oh oc am ai vi ki sd mt la sm v bu vu vp ve ae vq aq
  | P_backgroundUrl v =>
      mkState sp oh oc am ai vi ki sd mt la sm et v vu vp ve ae vq aq
  | P_voiceUrl v =>
      mkState sp oh oc am ai vi ki sd mt la sm et bu v vp ve ae vq aq
  | P_voiceParams v =>
      mkState sp oh oc am ai vi ki sd mt la sm et bu vu v ve ae vq aq
  | P_videoEnabled v =>
      mkState sp oh oc am ai vi ki sd mt la sm et bu vu vp v ae vq aq
  | P_audioEnabled v =>
      mkState sp oh oc am ai vi ki sd mt la sm et bu vu vp ve v vq aq
  | P_videoQuality v =>
      mkState sp oh oc am ai vi ki sd mt la sm et bu vu vp ve ae v aq
  | P_audioQuality v =>
      mkState sp oh oc am ai vi ki sd mt la sm et bu vu vp ve ae vq v
  end.

(** zustand's [set(partial)]: the new state is the old one with the
    properties of [partial] assigned over it, left to right. *)
Definition set_ (partial : list Entry) (state : ConfigurationState)
  : ConfigurationState :=
  fold_left assign partial state.

Definition setSelectedProvider (provider : StreamProviderType) :=
  set_ [P_selectedProvider provider].
Definition setOpenapiHost (host : string) := set_ [P_openapiHost host].
Definition setOpenapiCredential (credential : string) :=
  set_ [P_openapiCredential credential].
Definition setAuthMethod (method : AuthMethod) := set_ [P_authMethod method].
Definition setAvatarId (avatarId : string) := set_ [P_avatarId avatarId].
Definition setVoiceId (voiceId : string) := set_ [P_voiceId voiceId].
Definition setKnowledgeId (knowledgeId : string) :=
  set_ [P_knowledgeId knowledgeId].
Definition setSessionDuration (duration : Z) :=
  set_ [P_sessionDuration duration].
Definition setModeType (modeType : Z) := set_ [P_modeType modeType].
Definition setLanguage (language : string) := set_ [P_language language].
Definition setSceneMode (sceneMode : option SceneMode) :=
  set_ [P_sceneMode sceneMode].
Definition setE2eType (e2eType : option E2EType) := set_ [P_e2eType e2eType].
Definition setBackgroundUrl (url : string) := set_ [P_backgroundUrl url].
Definition setVoiceUrl (url : string) := set_ [P_voiceUrl url].
Definition setVoiceParams (params : gmap string ParamValue) :=
  set_ [P_voiceParams params].
Definition setVideoEnabled (enabled : bool) := set_ [P_videoEnabled enabled].
Definition setAudioEnabled (enabled : bool) := set_ [P_audioEnabled enabled].
Definition setVideoQuality (quality : Quality) :=
  set_ [P_videoQuality quality].
Definition setAudioQuality (quality : Quality) :=
  set_ [P_audioQuality quality].

(** The setter of the field an entry names, applied to the entry's value:
    [setter (P_avatarId v)] is the call [setAvatarId(v)]. *)
Definition setter (p : Entry) : ConfigurationState -> ConfigurationState :=
  match p with
  | P_selectedProvider v => setSelectedProvider v
  | P_openapiHost v => setOpenapiHost v
  | P_openapiCredential v => setOpenapiCredential v
  | P_authMethod v => setAuthMethod v
  | P_avatarId v => setAvatarId v
  | P_voiceId v => setVoiceId v
  | P_knowledgeId v => setKnowledgeId v
  | P_sessionDuration v => setSessionDuration v
  | P_modeType v => setModeType v
  | P_language v => setLanguage v
  | P_sceneMode v => setSceneMode v
  | P_e2eType v => setE2eType v
  | P_backgroundUrl v => setBackgroundUrl v
  | P_voiceUrl v => setVoiceUrl v
  | P_voiceParams v => setVoiceParams v
  | P_videoEnabled v => setVideoEnabled v
  | P_audioEnabled v => setAudioEnabled v
  | P_videoQuality v => setVideoQuality v
  | P_audioQuality v => setAudioQuality v
  end.

Definition resetToDefaults : ConfigurationState -> ConfigurationState :=
  set_ [ P_selectedProvider agora;
         P_openapiHost "";
         P_openapiCredential "";
         P_authMethod token;
         P_avatarId "";
         P_voiceId "";
         P_knowledgeId "";
         P_sessionDuration 10;
         P_modeType 2;
         P_language "en";
         P_sceneMode None;
         P_e2eType None;
         P_backgroundUrl "";
         P_voiceUrl "";
         P_voiceParams ∅;
         P_videoEnabled true;
         P_audioEnabled true;
         P_videoQuality medium;
         P_audioQuality medium ].

(* ===================================================================== *)
(** ** Initial state *)
(* ===================================================================== *)

(** The build-time variables the initial state reads from
    [import.meta.env]; [None] is an unset variable.  [VITE_STREAM_TYPE] is
    taken at the type the source casts it to, and [VITE_MODE_TYPE] as the
    integer [Number] makes of it ([None] when that is [NaN]). *)
Record Env := mkEnv {
  VITE_STREAM_TYPE : option StreamProviderType;
  VITE_OPENAPI_HOST : option string;
  VITE_OPENAPI_TOKEN : option string;
  VITE_AVATAR_ID : option string;
  VITE_VOICE_ID : option string;
  VITE_MODE_TYPE : option Z;
  VITE_LANGUAGE : option string;
  VITE_BACKGROUND_URL : option string;
  VITE_VOICE_URL : option string
}.

(** [x || d] for [x : string | undefined] *)
Definition env_or (x : option string) (d : string) : string :=
  match x with Some s => js_or s d | None => d end.

Definition initialState (env : Env) : ConfigurationState :=
  {| selectedProvider := default agora (VITE_STREAM_TYPE env);
     openapiHost := env_or (VITE_OPENAPI_HOST env) "";
     openapiCredential := env_or (VITE_OPENAPI_TOKEN env) "";
     authMethod := token;
     avatarId := env_or (VITE_AVATAR_ID env) "";
     voiceId := env_or (VITE_VOICE_ID env) "";
     knowledgeId := "";
     sessionDuration := 10;
     modeType :=
       match VITE_MODE_TYPE env with
       | Some n => if (n =? 0)%Z then 2%Z else n
       | None => 2%Z
       end;
     language := env_or (VITE_LANGUAGE env) "en";
     sceneMode := None;
     e2eType := None;
     backgroundUrl := env_or (VITE_BACKGROUND_URL env) "";
     voiceUrl := env_or (VITE_VOICE_URL env) "";
     voiceParams := ∅;
     videoEnabled := true;
     audioEnabled := true;
     videoQuality := medium;
     audioQuality := medium |}.

(* ===================================================================== *)
(** ** Persistence *)
(* ===================================================================== *)

(** The storage name given to the [persist] middleware. *)
Definition storage_name : string := "streaming-avatar-config".






















(* ===================================================================== *)
(** ** Definitions used by the statements below *)
(* ===================================================================== *)

Definition msg_host : string := "OpenAPI host is required".
Definition msg_token : string := "OpenAPI token is required".
Definition msg_apikey : string := "API key is required".
Definition msg_avatar : string := "Avatar ID is required".
Definition msg_duration : string := "Session duration must be greater than 0".
Definition msg_mode : string := "Mode type must be between 1 and 3".

(** The message of the credential rule. *)
Definition msg_credential (m : AuthMethod) : string :=
  match m with token => msg_token | apiKey => msg_apikey end.

(** What one rule contributes: its message when violated, else nothing. *)
Definition rule (violated : bool) (msg : string) : list string :=
  if violated then [msg] else [].

(** The rule list as the specification words it: five rules in a fixed
    order, each adding its message when violated. *)
Definition spec_errors (state : ConfigurationState) : list string :=
  rule (String.eqb (openapiHost state) "") msg_host
  ++ rule (String.eqb (openapiCredential state) "")
          (msg_credential (authMethod state))
  ++ rule (String.eqb (avatarId state) "") msg_avatar
  ++ rule (bool_decide (sessionDuration state <= 0)%Z) msg_duration
  ++ rule (bool_decide (modeType state < 1 \/ 3 < modeType state)%Z) msg_mode.

(** A store built with no build-time variable set. *)
Definition no_env : Env :=
  mkEnv None None None None None None None None None.

(** Host, credential and avatar filled in on a fresh store. *)
Definition scenario_B : ConfigurationState :=
  setAvatarId "a"
    (setOpenapiCredential "c" (setOpenapiHost "h" (initialState no_env))).

(** A state in which the end-to-end type is set. *)
Definition with_openai : ConfigurationState :=
  setE2eType (Some openai)
    (setSceneMode (Some fast_dialogue) (initialState no_env)).

(** The literal defaults of [resetToDefaults]. *)
Definition defaults : ConfigurationState :=
  {| selectedProvider := agora;
     openapiHost := "";
     openapiCredential := "";
     authMethod := token;
     avatarId := "";
     voiceId := "";
     knowledgeId := "";
     sessionDuration := 10;
     modeType := 2;
     language := "en";
     sceneMode := None;
     e2eType := None;
     backgroundUrl := "";
     voiceUrl := "";
     voiceParams := ∅;
     videoEnabled := true;
     audioEnabled := true;
     videoQuality := medium;
     audioQuality := medium |}.

(** A build that sets the provider, the avatar and the language. *)
Definition some_env : Env :=
  mkEnv (Some livekit) None None (Some "av1") None (Some 1%Z) (Some "fr")
        None None.

(** The twelve properties of the object literal, in source order. *)
Definition payload_keys : list string :=
  [ "avatar_id"; "duration"; "knowledge_id"; "voice_id"; "voice_url";
    "language"; "mode_type"; "background_url"; "voice_params";
    "stream_type"; "scene_mode"; "e2e_type" ].

(** What the builder does with an optional string [s] under key [k]: an
    empty [s] leaves the property [undefined], so that serialisation drops
    it; a non-empty [s] is carried as it is. *)
Definition optional_string (k s : string) (o : JsObject) : Prop :=
  (s = "" ->
     obj_get k o = Some JsUndefined /\ obj_get k (json_entries o) = None)
  /\ (s <> "" ->
        obj_get k o = Some (JsString s)
        /\ obj_get k (json_entries o) = Some (JsString s)).

(** Scenario D: a reset store given an avatar and no language. *)
Definition scenario_D : ConfigurationState :=
  setLanguage "" (setAvatarId "av1" (resetToDefaults (initialState no_env))).

(** A fresh store whose duration was set below zero: no avatar either. *)
Definition invalid_state : ConfigurationState :=
  setSessionDuration (-5) (initialState no_env).

(* ===================================================================== *)
(** ** The configuration panel *)
(* ===================================================================== *)

(** Modelled from the spec: the declaration of [Avatar] in [apiService] is
    not among the sources; these are the three fields the panel reads,
    [avatar_id], [type] and [from]. *)
Record Avatar := mkAvatar {
  avatar_id : string;
  avatar_type : Z;
  avatar_from : Z
}.

(** [o?.field === n]: false when [o] is [undefined]. *)
Definition field_is {A : Type} (o : option A) (field : A -> Z) (n : Z)
  : bool :=
  match o with
  | Some a => (field a =? n)%Z
  | None => false
  end.

(** The panel's [isBackgroundUrlDisabled], from the avatar list it loaded
    and the avatar id of the store. *)
Definition isBackgroundUrlDisabled (avatars : list Avatar)
  (avatarId : string) : bool :=
  let selectedAvatar :=
    List.find (fun avatar => String.eqb (avatar_id avatar) avatarId)
      avatars in
  field_is selectedAvatar avatar_type 2
  && (field_is selectedAvatar avatar_from 3
      || field_is selectedAvatar avatar_from 4).

(** [onChange] of the scene mode select. *)
Definition onSceneModeChange (value : string)
  : ConfigurationState -> ConfigurationState :=
  setSceneMode
    (if String.eqb value "fast_dialogue" then Some fast_dialogue
     else if String.eqb value "meeting" then Some meeting
     else None).

(** [onChange] of the end-to-end type select. *)
Definition onE2eTypeChange (value : string)
  : ConfigurationState -> ConfigurationState :=
  setE2eType (if String.eqb value "openai" then Some openai else None).

(** The end-to-end type select is rendered only when
    [sceneMode === 'fast_dialogue']. *)
Definition e2eTypeSelectShown (state : ConfigurationState) : bool :=
  String.eqb (sceneMode_string (sceneMode state)) "fast_dialogue".

(** What [handleStartStreaming] does to its surroundings, in order. *)
Inductive PanelEffect :=
  | ShowError (message : string)
  | SetIsStarting (b : bool)
  | StartStreaming.

(** How the awaited [startStreaming()] ends: resolved, rejected with an
    [Error] carrying a message, or rejected with anything else. *)
Inductive StartResult :=
  | Resolved
  | RejectedError (message : string)
  | RejectedOther.

(** [handleStartStreaming], on the store state and the [validationErrors]
    the panel holds, as the effects it performs. *)
Definition handleStartStreaming (state : ConfigurationState)
  (validationErrors : list string) (result : StartResult)
  : list PanelEffect :=
  if negb (isFullyConfigured state) then
    [ ShowError "Please configure all required settings before starting" ]
  else if (0 <? length validationErrors)%nat then
    [ ShowError (String.append "Configuration errors: "
                   (String.concat ", " validationErrors)) ]
  else
    ([ SetIsStarting true; StartStreaming ]
     ++ match result with
        | Resolved => []
        | RejectedError message =>
            [ ShowError (String.append "Failed to start streaming: " message) ]
        | RejectedOther =>
            [ ShowError "Failed to start streaming: Unknown error" ]
        end
     ++ [ SetIsStarting false ])%list.

(** The [disabled] attribute of the start button. *)
Definition startButtonDisabled (state : ConfigurationState)
  (validationErrors : list string) (isStarting : bool) : bool :=
  negb (isFullyConfigured state)
  || (0 <? length validationErrors)%nat
  || isStarting.

(** Whether one of the store values in the dependency list of the
    validation effect, [openapiCredential, openapiHost, avatarId, voiceId,
    knowledgeId], differs between two renders ([validateConfiguration]
    itself is created once and never changes). *)
Definition validation_deps_changed (prev next : ConfigurationState) : bool :=
  negb (String.eqb (openapiCredential prev) (openapiCredential next)
        && String.eqb (openapiHost prev) (openapiHost next)
        && String.eqb (avatarId prev) (avatarId next)
        && String.eqb (voiceId prev) (voiceId next)
        && String.eqb (knowledgeId prev) (knowledgeId next)).

(** The [validationErrors] the panel holds after a render that follows a
    store change: the effect runs again only when a dependency changed,
    and otherwise the errors of the previous render stay. *)
Definition validationEffect (prev next : ConfigurationState)
  (validationErrors : list string) : list string :=
  if validation_deps_changed prev next
  then errors (validateConfiguration next)
  else validationErrors.

(** The first render runs the effect once. *)
Definition validationErrors_on_mount (state : ConfigurationState)
  : list string :=
  errors (validateConfiguration state).

(** The errors other than the duration message. *)
Definition without_duration (errs : list string) : list string :=
  List.filter
    (fun e => negb (String.eqb e "Session duration must be greater than 0"))
    errs.

(** The payload entry a store field feeds, if any. *)
Definition payload_key (k : Key) : option string :=
  match k with
  | K_avatarId => Some "avatar_id"
  | K_sessionDuration => Some "duration"
  | K_knowledgeId => Some "knowledge_id"
  | K_voiceId => Some "voice_id"
  | K_voiceUrl => Some "voice_url"
  | K_language => Some "language"
  | K_modeType => Some "mode_type"
  | K_backgroundUrl => Some "background_url"
  | K_voiceParams => Some "voice_params"
  | K_selectedProvider => Some "stream_type"
  | K_sceneMode => Some "scene_mode"
  | K_e2eType => Some "e2e_type"
  | K_openapiHost | K_openapiCredential | K_authMethod | K_videoEnabled
  | K_audioEnabled | K_videoQuality | K_audioQuality => None
  end.



(** A build-time variable that is unset or empty. *)
Definition unset (x : option string) : Prop := x = None \/ x = Some "".

(** Every variable present and empty, the mode type zero. *)
Definition empty_env : Env :=
  mkEnv None (Some "") (Some "") (Some "") (Some "") (Some 0%Z) (Some "")
        (Some "") (Some "").

(** Two avatars sharing an id, the first of the kind that takes no
    background. *)
Definition two_avatars : list Avatar :=
  [ mkAvatar "other" 1 1; mkAvatar "av1" 2 3; mkAvatar "av1" 1 1 ].

(* ===================================================================== *)
(** ** Truthiness *)
(* ===================================================================== *)

Lemma truthy_true_iff (s : string) : truthy s = true <-> s <> "".
Proof. destruct s; simpl; split; congruence. Qed.

Lemma truthy_false_iff (s : string) : truthy s = false <-> s = "".
Proof. destruct s; simpl; split; congruence. Qed.

Lemma truthy_js_and (a b : string) :
  truthy (js_and a b) = truthy a && truthy b.
Proof. unfold js_and. destruct a; reflexivity. Qed.

Lemma or_undefined_empty : or_undefined "" = JsUndefined.
Proof. reflexivity. Qed.

Lemma or_undefined_nonempty (s : string) :
  s <> "" -> or_undefined s = JsString s.
Proof. destruct s; [congruence | reflexivity]. Qed.

(* ===================================================================== *)
(** ** The derived queries *)
(* ===================================================================== *)

(** C8. [isFullyConfigured()] is true exactly when [isApiConfigured()] and
    [isAvatarConfigured()] both are; [isApiConfigured()] is true exactly
    when the host and the credential are both non-empty, and
    [isAvatarConfigured()] exactly when the avatar id is non-empty. *)
Theorem isFullyConfigured_iff (state : ConfigurationState) :
  (isFullyConfigured state = true <->
     isApiConfigured state = true /\ isAvatarConfigured state = true)
  /\ (isApiConfigured state = true <->
        openapiHost state <> "" /\ openapiCredential state <> "")
  /\ (isAvatarConfigured state = true <-> avatarId state <> "").
Proof.
  unfold isFullyConfigured, isApiConfigured, isAvatarConfigured.
  rewrite !truthy_js_and, !andb_true_iff, !truthy_true_iff.
  tauto.
Qed.

(* ===================================================================== *)
(** ** The validator *)
(* ===================================================================== *)

Lemma rule_Forall (P : string -> Prop) (b : bool) (msg : string) :
  P msg -> Forall P (rule b msg).
Proof. intros H. destruct b; simpl; repeat constructor; exact H. Qed.

Lemma rule_length (b : bool) (msg : string) : (length (rule b msg) <= 1)%nat.
Proof. destruct b; simpl; lia. Qed.

Lemma negb_truthy (s : string) : negb (truthy s) = String.eqb s "".
Proof. destruct s; reflexivity. Qed.

Lemma validate_errors (state : ConfigurationState) :
  errors (validateConfiguration state) = spec_errors state.
Proof.
  unfold validateConfiguration, spec_errors, push, rule; simpl.
  rewrite !negb_truthy.
  replace (bool_decide (sessionDuration state <= 0)%Z)
    with (sessionDuration state <=? 0)%Z
    by (apply eq_true_iff_eq; rewrite bool_decide_eq_true; lia).
  replace (bool_decide (modeType state < 1 \/ 3 < modeType state)%Z)
    with ((modeType state <? 1) || (modeType state >? 3))%Z
    by (apply eq_true_iff_eq;
        rewrite bool_decide_eq_true, orb_true_iff; lia).
  destruct (authMethod state);
    destruct (String.eqb (openapiHost state) "");
    destruct (String.eqb (openapiCredential state) "");
    destruct (String.eqb (avatarId state) "");
    destruct (sessionDuration state <=? 0)%Z;
    destruct ((modeType state <? 1) || (modeType state >? 3))%Z;
    reflexivity.
Qed.

Lemma validate_isValid (state : ConfigurationState) :
  isValid (validateConfiguration state)
  = Nat.eqb (length (errors (validateConfiguration state))) 0.
Proof. reflexivity. Qed.

(** C2. The errors of [validateConfiguration()] are the messages of five
    rules in a fixed order, one message per violated rule: empty host,
    empty credential (worded after the auth method), empty avatar id,
    duration not above zero, mode type out of 1..3.  With empty host,
    credential and avatar id under token authentication and the other
    fields valid, the errors are the host, token and avatar messages, in
    that order. *)
Theorem validateConfiguration_rules (state : ConfigurationState) :
  errors (validateConfiguration state)
  = (rule (String.eqb (openapiHost state) "") "OpenAPI host is required"
    ++ rule (String.eqb (openapiCredential state) "")
            (match authMethod state with
             | token => "OpenAPI token is required"
             | apiKey => "API key is required"
             end)
    ++ rule (String.eqb (avatarId state) "") "Avatar ID is required"
    ++ rule (bool_decide (sessionDuration state <= 0)%Z)
            "Session duration must be greater than 0"
    ++ rule (bool_decide (modeType state < 1 \/ 3 < modeType state)%Z)
            "Mode type must be between 1 and 3")%list
  /\ (openapiHost state = "" -> openapiCredential state = "" ->
      avatarId state = "" -> authMethod state = token ->
      (0 < sessionDuration state)%Z -> (1 <= modeType state <= 3)%Z ->
      errors (validateConfiguration state)
      = [ "OpenAPI host is required"; "OpenAPI token is required";
          "Avatar ID is required" ]).
Proof.
  split.
  - rewrite validate_errors. unfold spec_errors.
    destruct (authMethod state); reflexivity.
  - intros Hh Hc Ha Hm Hd Ht.
    rewrite validate_errors. unfold spec_errors.
    rewrite Hh, Hc, Ha, Hm.
    rewrite !bool_decide_eq_false_2 by lia. reflexivity.
Qed.

Lemma validateConfiguration_rules_fresh :
  errors (validateConfiguration (initialState no_env))
  = [ "OpenAPI host is required"; "OpenAPI token is required";
      "Avatar ID is required" ].
Proof.
  apply (proj2 (validateConfiguration_rules (initialState no_env)));
    simpl; first [ reflexivity | lia ].
Defined.

(** C3. [validateConfiguration()] always returns a result: its flag is
    true exactly when its error list is empty, and the list holds at most
    five messages, each one of the six the validator knows. *)
Theorem validateConfiguration_isValid_iff (state : ConfigurationState) :
  (isValid (validateConfiguration state) = true <->
     errors (validateConfiguration state) = [])
  /\ Forall (fun e => In e [ "OpenAPI host is required";
                             "OpenAPI token is required";
                             "API key is required";
                             "Avatar ID is required";
                             "Session duration must be greater than 0";
                             "Mode type must be between 1 and 3" ])
       (errors (validateConfiguration state))
  /\ (length (errors (validateConfiguration state)) <= 5)%nat.
Proof.
  split.
  - rewrite validate_isValid.
    destruct (errors (validateConfiguration state)); simpl;
      split; congruence.
  - rewrite validate_errors. unfold spec_errors. split.
    + repeat apply Forall_app_2; apply rule_Forall;
        try destruct (authMethod state); simpl; tauto.
    + rewrite !length_app.
      pose proof (rule_length (String.eqb (openapiHost state) "") msg_host).
      pose proof (rule_length (String.eqb (openapiCredential state) "")
                    (msg_credential (authMethod state))).
      pose proof (rule_length (String.eqb (avatarId state) "") msg_avatar).
      pose proof (rule_length (bool_decide (sessionDuration state <= 0)%Z)
                    msg_duration).
      pose proof (rule_length
                    (bool_decide (modeType state < 1 \/ 3 < modeType state)%Z)
                    msg_mode).
      lia.
Qed.

(** C7. The mode-type message is among the errors exactly when the mode
    type lies outside 1..3, whatever the other fields hold; and with mode
    type 5 and every other rule satisfied it is the only error. *)
Theorem validateConfiguration_modeType (state : ConfigurationState) :
  (In "Mode type must be between 1 and 3"
      (errors (validateConfiguration state)) <->
     (modeType state < 1 \/ 3 < modeType state)%Z)
  /\ (openapiHost state <> "" -> openapiCredential state <> "" ->
      avatarId state <> "" -> (0 < sessionDuration state)%Z ->
      modeType state = 5%Z ->
      errors (validateConfiguration state)
      = [ "Mode type must be between 1 and 3" ]).
Proof.
  rewrite validate_errors. unfold spec_errors, rule. split.
  - destruct (decide (modeType state < 1 \/ 3 < modeType state)%Z)
      as [Hmode | Hmode].
    + rewrite (bool_decide_eq_true_2 _ Hmode).
      split; [ intros _; exact Hmode | intros _ ].
      rewrite !in_app_iff. do 4 right. left. reflexivity.
    + rewrite (bool_decide_eq_false_2 _ Hmode).
      split; [ | intros H; contradiction ].
      rewrite !in_app_iff.
      destruct (authMethod state);
        destruct (String.eqb (openapiHost state) "");
        destruct (String.eqb (openapiCredential state) "");
        destruct (String.eqb (avatarId state) "");
        destruct (bool_decide (sessionDuration state <= 0)%Z);
        simpl; unfold msg_host, msg_token, msg_apikey, msg_avatar,
                 msg_duration;
        intuition discriminate.
  - intros Hh Hc Ha Hd Hm.
    apply String.eqb_neq in Hh, Hc, Ha. rewrite Hh, Hc, Ha.
    rewrite bool_decide_eq_false_2 by lia.
    rewrite bool_decide_eq_true_2 by lia. reflexivity.
Qed.

Lemma validateConfiguration_modeType_five :
  errors (validateConfiguration (setModeType 5 scenario_B))
  = [ "Mode type must be between 1 and 3" ].
Proof.
  apply (proj2 (validateConfiguration_modeType (setModeType 5 scenario_B)));
    simpl; first [ discriminate | lia | reflexivity ].
Defined.

(* ===================================================================== *)
(** ** Setters, reset and persistence *)
(* ===================================================================== *)

(** Two states with the same value in every field are the same state. *)
Lemma read_ext (s1 s2 : ConfigurationState) :
  (forall k, read k s1 = read k s2) -> s1 = s2.
Proof.
  intros H. destruct s1, s2.
  generalize (H K_selectedProvider) (H K_openapiHost)
    (H K_openapiCredential) (H K_authMethod) (H K_avatarId) (H K_voiceId)
    (H K_knowledgeId) (H K_sessionDuration) (H K_modeType) (H K_language)
    (H K_sceneMode) (H K_e2eType) (H K_backgroundUrl) (H K_voiceUrl)
    (H K_voiceParams) (H K_videoEnabled) (H K_audioEnabled)
    (H K_videoQuality) (H K_audioQuality).
  clear H. simpl.
  repeat (let E := fresh "E" in intros E; injection E as ->).
  reflexivity.
Qed.

Lemma read_assign_same (p : Entry) (state : ConfigurationState) :
  read (key_of p) (assign state p) = p.
Proof. destruct state, p; reflexivity. Qed.

Lemma read_assign_other (p : Entry) (k : Key) (state : ConfigurationState) :
  k <> key_of p -> read k (assign state p) = read k state.
Proof. destruct state, p, k; simpl; congruence. Qed.

Lemma setter_assign (p : Entry) (state : ConfigurationState) :
  setter p state = assign state p.
Proof. destruct p; reflexivity. Qed.

(** C4. Reading a field right after its setter returns the value written,
    every other field reads as before, and in particular [setSceneMode]
    leaves [e2eType] alone. *)
Theorem setter_read_frame (p : Entry) (state : ConfigurationState) :
  read (key_of p) (setter p state) = p
  /\ (forall k, k <> key_of p -> read k (setter p state) = read k state)
  /\ (forall m, e2eType (setSceneMode m state) = e2eType state).
Proof.
  rewrite setter_assign. split; [ apply read_assign_same | split ].
  - intros k Hk. now apply read_assign_other.
  - intros m. destruct state; reflexivity.
Qed.

Lemma setter_read_frame_sceneMode :
  read K_sceneMode (setSceneMode (Some meeting) with_openai)
  = P_sceneMode (Some meeting)
  /\ read K_e2eType (setSceneMode (Some meeting) with_openai)
     = P_e2eType (Some openai).
Proof.
  split.
  - exact (proj1 (setter_read_frame (P_sceneMode (Some meeting)) with_openai)).
  - apply (proj1 (proj2 (setter_read_frame (P_sceneMode (Some meeting))
                           with_openai)) K_e2eType).
    simpl. discriminate.
Defined.

Lemma resetToDefaults_defaults (state : ConfigurationState) :
  resetToDefaults state = defaults.
Proof. destruct state; reflexivity. Qed.

(** C5. [resetToDefaults()] takes every state to the same state, whose
    fields are the literal defaults; the build-time variables that seed
    the initial state play no part in it; and resetting twice is resetting
    once. *)
Theorem resetToDefaults_fixed (state : ConfigurationState) :
  resetToDefaults state
  = {| selectedProvider := agora;
       openapiHost := "";
       openapiCredential := "";
       authMethod := token;
       avatarId := "";
       voiceId := "";
       knowledgeId := "";
       sessionDuration := 10;
       modeType := 2;
       language := "en";
       sceneMode := None;
       e2eType := None;
       backgroundUrl := "";
       voiceUrl := "";
       voiceParams := ∅;
       videoEnabled := true;
       audioEnabled := true;
       videoQuality := medium;
       audioQuality := medium |}
  /\ (forall other, resetToDefaults state = resetToDefaults other)
  /\ (forall env, resetToDefaults (initialState env) = resetToDefaults state)
  /\ initialState some_env <> resetToDefaults (initialState some_env)
  /\ resetToDefaults (resetToDefaults state) = resetToDefaults state.
Proof.
  rewrite !resetToDefaults_defaults. split; [ reflexivity | ].
  split; [ intros other; now rewrite resetToDefaults_defaults | ].
  split; [ intros env; now rewrite resetToDefaults_defaults | ].
  split; [ | reflexivity ].
  intros H. apply (f_equal selectedProvider) in H. discriminate H.
Qed.










(* ===================================================================== *)
(** ** The session options *)
(* ===================================================================== *)

Lemma getSessionOptions_keys (state : ConfigurationState) :
  obj_keys (getSessionOptions state) = payload_keys.
Proof. reflexivity. Qed.

Lemma payload_keys_NoDup : NoDup payload_keys.
Proof.
  apply (bool_decide_unpack _). vm_compute. reflexivity.
Qed.

Lemma obj_get_absent (k : string) (o : JsObject) :
  ~ In k (obj_keys o) -> obj_get k (json_entries o) = None.
Proof.
  induction o as [| [k' v] o IH]; simpl; [ reflexivity | ].
  intros Hk. destruct (is_defined v); simpl.
  - destruct (String.eqb_spec k k') as [-> | _]; [ tauto | ].
    apply IH. tauto.
  - apply IH. tauto.
Qed.

(** Reading a property of the serialised object: the value of the object
    itself, unless that value is [undefined]. *)
Lemma obj_get_json_entries (k : string) (o : JsObject) :
  NoDup (obj_keys o) ->
  obj_get k (json_entries o)
  = match obj_get k o with
    | Some v => if is_defined v then Some v else None
    | None => None
    end.
Proof.
  induction o as [| [k' v] o IH]; simpl; [ reflexivity | ].
  intros Hnd. apply NoDup_cons in Hnd as [Hk' Hnd].
  destruct (String.eqb_spec k k') as [-> | Hne].
  - destruct (is_defined v) eqn:Hv; simpl.
    + now rewrite String.eqb_refl.
    + apply obj_get_absent. rewrite <- list_elem_of_In. exact Hk'.
  - destruct (is_defined v); simpl.
    + apply String.eqb_neq in Hne. rewrite Hne. now apply IH.
    + now apply IH.
Qed.

Lemma optional_string_intro (k s : string) (o : JsObject) :
  NoDup (obj_keys o) ->
  obj_get k o = Some (or_undefined s) ->
  optional_string k s o.
Proof.
  intros Hnd Hget. unfold optional_string.
  rewrite (obj_get_json_entries k o Hnd), Hget.
  split; intros Hs.
  - subst s. now rewrite or_undefined_empty.
  - now rewrite (or_undefined_nonempty s Hs).
Qed.

Lemma sceneMode_string_empty (m : option SceneMode) :
  sceneMode_string m = "" <-> m = None.
Proof. destruct m as [[]|]; simpl; split; congruence. Qed.

Lemma e2eType_string_empty (t : option E2EType) :
  e2eType_string t = "" <-> t = None.
Proof. destruct t as [[]|]; simpl; split; congruence. Qed.

Lemma size_pos_nonempty (m : gmap string ParamValue) :
  (0 <? size m)%nat = true <-> m <> ∅.
Proof.
  rewrite Nat.ltb_lt, <- map_size_non_empty_iff. lia.
Qed.

Ltac optional_entry :=
  apply optional_string_intro;
  [ rewrite getSessionOptions_keys; exact payload_keys_NoDup | reflexivity ].

Ltac json_required :=
  rewrite obj_get_json_entries
    by (rewrite getSessionOptions_keys; exact payload_keys_NoDup);
  reflexivity.

(** C1, as the code has it.  The object [getSessionOptions()] returns always
    has the same twelve properties.  [avatar_id], [duration], [mode_type]
    and [stream_type] always carry the stored value.  Each optional string
    ([knowledge_id], [voice_id], [voice_url], [language], [background_url],
    [scene_mode], [e2e_type]) carries the stored string when that is
    non-empty and is [undefined] (never the empty string) when it is empty;
    [voice_params] carries the mapping when it has a key and is [undefined]
    otherwise.  Serialised to JSON, the payload therefore has a key for an
    optional field exactly when the field is non-empty.  For avatar "av1",
    duration 10, mode type 2 and every optional field empty, the serialised
    payload is exactly avatar_id, duration, mode_type and stream_type. *)
Theorem getSessionOptions_payload (state : ConfigurationState) :
  obj_keys (getSessionOptions state)
  = [ "avatar_id"; "duration"; "knowledge_id"; "voice_id"; "voice_url";
      "language"; "mode_type"; "background_url"; "voice_params";
      "stream_type"; "scene_mode"; "e2e_type" ]
  /\ obj_get "avatar_id" (json_entries (getSessionOptions state))
     = Some (JsString (avatarId state))
  /\ obj_get "duration" (json_entries (getSessionOptions state))
     = Some (JsNumber (sessionDuration state))
  /\ obj_get "mode_type" (json_entries (getSessionOptions state))
     = Some (JsNumber (modeType state))
  /\ obj_get "stream_type" (json_entries (getSessionOptions state))
     = Some (JsString (provider_string (selectedProvider state)))
  /\ optional_string "knowledge_id" (knowledgeId state)
       (getSessionOptions state)
  /\ optional_string "voice_id" (voiceId state) (getSessionOptions state)
  /\ optional_string "voice_url" (voiceUrl state) (getSessionOptions state)
  /\ optional_string "language" (language state) (getSessionOptions state)
  /\ optional_string "background_url" (backgroundUrl state)
       (getSessionOptions state)
  /\ optional_string "scene_mode" (sceneMode_string (sceneMode state))
       (getSessionOptions state)
  /\ (sceneMode_string (sceneMode state) = "" <-> sceneMode state = None)
  /\ optional_string "e2e_type" (e2eType_string (e2eType state))
       (getSessionOptions state)
  /\ (e2eType_string (e2eType state) = "" <-> e2eType state = None)
  /\ (voiceParams state = ∅ ->
        obj_get "voice_params" (getSessionOptions state) = Some JsUndefined
        /\ obj_get "voice_params" (json_entries (getSessionOptions state))
           = None)
  /\ (voiceParams state <> ∅ ->
        obj_get "voice_params" (getSessionOptions state)
        = Some (JsRecord (voiceParams state))
        /\ obj_get "voice_params" (json_entries (getSessionOptions state))
           = Some (JsRecord (voiceParams state)))
  /\ (avatarId state = "av1" -> sessionDuration state = 10%Z ->
      modeType state = 2%Z -> knowledgeId state = "" ->
      voiceId state = "" -> voiceUrl state = "" -> language state = "" ->
      backgroundUrl state = "" -> sceneMode state = None ->
      e2eType state = None -> voiceParams state = ∅ ->
      json_entries (getSessionOptions state)
      = [ ("avatar_id", JsString "av1");
          ("duration", JsNumber 10);
          ("mode_type", JsNumber 2);
          ("stream_type",
             JsString (provider_string (selectedProvider state))) ]).
Proof.
  split; [ reflexivity | ].
  do 4 (split; [ json_required | ]).
  do 6 (split; [ optional_entry | ]).
  split; [ apply sceneMode_string_empty | ].
  split; [ optional_entry | ].
  split; [ apply e2eType_string_empty | ].
  split; [ | split ].
  - intros Hvp.
    rewrite obj_get_json_entries
      by (rewrite getSessionOptions_keys; exact payload_keys_NoDup).
    simpl. rewrite Hvp, map_size_empty. simpl. split; reflexivity.
  - intros Hvp.
    rewrite obj_get_json_entries
      by (rewrite getSessionOptions_keys; exact payload_keys_NoDup).
    simpl. apply size_pos_nonempty in Hvp. rewrite Hvp. split; reflexivity.
  - intros Ha Hd Hm Hk Hv Hu Hl Hb Hs He Hp.
    unfold getSessionOptions.
    rewrite Ha, Hd, Hm, Hk, Hv, Hu, Hl, Hb, Hs, He, Hp, map_size_empty.
    reflexivity.
Qed.

Lemma getSessionOptions_payload_scenario_D :
  json_entries (getSessionOptions scenario_D)
  = [ ("avatar_id", JsString "av1");
      ("duration", JsNumber 10);
      ("mode_type", JsNumber 2);
      ("stream_type", JsString "agora") ].
Proof.
  apply (proj2 (proj2 (proj2 (proj2 (proj2 (proj2 (proj2 (proj2 (proj2
          (proj2 (proj2 (proj2 (proj2 (proj2 (proj2 (proj2
            (getSessionOptions_payload scenario_D)))))))))))))))));
    reflexivity.
Defined.

(** C1, as the spec words it, fails on the object itself: in scenario D the
    object returned is not the four-property object, it has all twelve
    properties, eight of them [undefined]. *)
Lemma getSessionOptions_scenario_D_keys :
  getSessionOptions scenario_D
  <> [ ("avatar_id", JsString "av1");
       ("duration", JsNumber 10);
       ("mode_type", JsNumber 2);
       ("stream_type", JsString "agora") ]
  /\ length (obj_keys (getSessionOptions scenario_D)) = 12%nat
  /\ obj_has "knowledge_id" (getSessionOptions scenario_D) = true
  /\ obj_has "voice_id" (getSessionOptions scenario_D) = true
  /\ obj_has "voice_url" (getSessionOptions scenario_D) = true
  /\ obj_has "language" (getSessionOptions scenario_D) = true
  /\ obj_has "background_url" (getSessionOptions scenario_D) = true
  /\ obj_has "voice_params" (getSessionOptions scenario_D) = true
  /\ obj_has "scene_mode" (getSessionOptions scenario_D) = true
  /\ obj_has "e2e_type" (getSessionOptions scenario_D) = true
  /\ obj_get "voice_id" (getSessionOptions scenario_D) = Some JsUndefined.
Proof.
  split.
  - intros H. apply (f_equal (@length _)) in H. discriminate H.
  - repeat split; reflexivity.
Qed.

Lemma isValid_false_of_error (state : ConfigurationState) (msg : string) :
  In msg (errors (validateConfiguration state)) ->
  isValid (validateConfiguration state) = false.
Proof.
  rewrite validate_isValid.
  destruct (errors (validateConfiguration state)); simpl; tauto.
Qed.

(** C9. [getSessionOptions()] returns a payload for every state and copies
    the two required entries unchecked: [avatar_id] is the stored avatar
    id even when that is empty, and [duration] the stored duration even
    when that is zero or negative, although the validator rejects both
    states. *)
Theorem getSessionOptions_no_validation (state : ConfigurationState) :
  obj_get "avatar_id" (getSessionOptions state)
  = Some (JsString (avatarId state))
  /\ obj_get "duration" (getSessionOptions state)
     = Some (JsNumber (sessionDuration state))
  /\ obj_get "avatar_id" (json_entries (getSessionOptions state))
     = Some (JsString (avatarId state))
  /\ obj_get "duration" (json_entries (getSessionOptions state))
     = Some (JsNumber (sessionDuration state))
  /\ (avatarId state = "" ->
        isValid (validateConfiguration state) = false
        /\ obj_get "avatar_id" (getSessionOptions state)
           = Some (JsString ""))
  /\ ((sessionDuration state <= 0)%Z ->
        isValid (validateConfiguration state) = false
        /\ exists d, (d <= 0)%Z
             /\ obj_get "duration" (getSessionOptions state)
                = Some (JsNumber d)).
Proof.
  split; [ reflexivity | ]. split; [ reflexivity | ].
  do 2 (split; [ json_required | ]).
  split.
  - intros Ha. split.
    + apply (isValid_false_of_error state msg_avatar).
      rewrite validate_errors. unfold spec_errors. rewrite Ha.
      rewrite !in_app_iff. do 2 right. left. simpl. tauto.
    + simpl. now rewrite Ha.
  - intros Hd. split.
    + apply (isValid_false_of_error state msg_duration).
      rewrite validate_errors. unfold spec_errors.
      rewrite (bool_decide_eq_true_2 _ Hd).
      rewrite !in_app_iff. do 3 right. left. simpl. tauto.
    + exists (sessionDuration state). split; [ exact Hd | reflexivity ].
Qed.

Lemma getSessionOptions_no_validation_invalid :
  obj_get "avatar_id" (getSessionOptions invalid_state)
  = Some (JsString "")
  /\ obj_get "duration" (getSessionOptions invalid_state)
     = Some (JsNumber (-5))
  /\ isValid (validateConfiguration invalid_state) = false.
Proof.
  pose proof (getSessionOptions_no_validation invalid_state)
    as (_ & Hd & _ & _ & Ha & _).
  destruct (Ha eq_refl) as [Hv Hget].
  split; [ exact Hget | ]. split; [ exact Hd | exact Hv ].
Defined.

(** C10. Right after [resetToDefaults()] the payload carries [language]
    with the value "en", the literal default; every other optional string
    is [undefined] there, so [language] is the one optional string that
    a freshly reset store does send. *)
Theorem resetToDefaults_language_en (state : ConfigurationState) :
  language (resetToDefaults state) = "en"
  /\ obj_get "language" (getSessionOptions (resetToDefaults state))
     = Some (JsString "en")
  /\ obj_get "language"
       (json_entries (getSessionOptions (resetToDefaults state)))
     = Some (JsString "en")
  /\ Forall
       (fun k =>
          obj_get k (getSessionOptions (resetToDefaults state))
          = Some JsUndefined)
       [ "knowledge_id"; "voice_id"; "voice_url"; "background_url";
         "scene_mode"; "e2e_type" ]
  /\ json_entries (getSessionOptions (resetToDefaults state))
     = [ ("avatar_id", JsString "");
         ("duration", JsNumber 10);
         ("language", JsString "en");
         ("mode_type", JsNumber 2);
         ("stream_type", JsString "agora") ].
Proof.
  rewrite resetToDefaults_defaults.
  repeat split; try reflexivity.
  repeat constructor.
Qed.

(* ===================================================================== *)
(** ** How the setters compose *)
(* ===================================================================== *)

(** X1. Setters of two different fields commute: the state after both
    calls does not depend on their order. *)
Theorem setters_commute (p q : Entry) (state : ConfigurationState) :
  key_of p <> key_of q ->
  setter p (setter q state) = setter q (setter p state).
Proof.
  intros H.
  destruct state, p, q;
    first [ reflexivity | exfalso; apply H; reflexivity ].
Qed.

Lemma setters_commute_avatar_voice :
  setAvatarId "a" (setVoiceId "v" (initialState no_env))
  = setVoiceId "v" (setAvatarId "a" (initialState no_env)).
Proof.
  apply (setters_commute (P_avatarId "a") (P_voiceId "v")
           (initialState no_env)).
  simpl. discriminate.
Defined.

(** X2. A setter overwrites whatever an earlier call of the same setter
    wrote: only the last of two writes to one field shows; and writing a
    field's current value back changes nothing. *)
Theorem setter_last_write_wins (p q : Entry) (k : Key)
  (state : ConfigurationState) :
  (key_of p = key_of q -> setter p (setter q state) = setter p state)
  /\ setter (read k state) state = state.
Proof.
  split.
  - intros H.
    destruct state, p, q; first [ reflexivity | discriminate H ].
  - destruct state, k; reflexivity.
Qed.

Lemma setter_last_write_wins_duration :
  setSessionDuration 30 (setSessionDuration 0 scenario_B)
  = setSessionDuration 30 scenario_B.
Proof.
  apply (proj1 (setter_last_write_wins (P_sessionDuration 30)
                  (P_sessionDuration 0) K_language scenario_B)).
  reflexivity.
Defined.

(* ===================================================================== *)
(** ** More on the validator *)
(* ===================================================================== *)

Lemma rule_nil (b : bool) (msg : string) : rule b msg = [] <-> b = false.
Proof. destruct b; simpl; split; congruence. Qed.

Lemma isFullyConfigured_nonempty (state : ConfigurationState) :
  isFullyConfigured state = true <->
    openapiHost state <> "" /\ openapiCredential state <> ""
    /\ avatarId state <> "".
Proof.
  unfold isFullyConfigured.
  rewrite !truthy_js_and, !andb_true_iff, !truthy_true_iff. tauto.
Qed.

Lemma eqb_empty_false (s : string) : String.eqb s "" = false <-> s <> "".
Proof. apply String.eqb_neq. Qed.

Lemma isValid_spec (state : ConfigurationState) :
  isValid (validateConfiguration state) = true <->
    (openapiHost state <> "" /\ openapiCredential state <> ""
     /\ avatarId state <> "")
    /\ (0 < sessionDuration state)%Z
    /\ (1 <= modeType state <= 3)%Z.
Proof.
  rewrite validate_isValid, Nat.eqb_eq, length_zero_iff_nil.
  rewrite validate_errors. unfold spec_errors.
  rewrite !app_nil, !rule_nil, !eqb_empty_false.
  rewrite !bool_decide_eq_false.
  split.
  - intros (Hh & Hc & Ha & Hd & Hm). repeat split; try assumption; lia.
  - intros ((Hh & Hc & Ha) & Hd & Hm). repeat split; try assumption; lia.
Qed.

(** X3. The validator accepts a state exactly when the state is fully
    configured and neither range test of the validator fires: the
    duration is not zero or below, the mode type is not below 1 or above
    3.  So a valid state is always fully configured.  Not conversely:
    setting the duration of a fully configured state to zero or below
    leaves it fully configured and makes it invalid. *)
Theorem isValid_iff_configured_in_range (state : ConfigurationState) :
  (isValid (validateConfiguration state) = true <->
     isFullyConfigured state = true
     /\ ~ (sessionDuration state <= 0)%Z
     /\ ~ (modeType state < 1 \/ 3 < modeType state)%Z)
  /\ (isValid (validateConfiguration state) = true ->
      isFullyConfigured state = true)
  /\ (isFullyConfigured state = true ->
      forall d, (d <= 0)%Z ->
        isFullyConfigured (setSessionDuration d state) = true
        /\ isValid (validateConfiguration (setSessionDuration d state))
           = false).
Proof.
  split; [ | split ].
  - rewrite isValid_spec, isFullyConfigured_nonempty.
    split; intros (Hconf & Hd & Hm); (split; [ exact Hconf | lia ]).
  - rewrite isValid_spec, isFullyConfigured_nonempty. tauto.
  - intros Hfull d Hd. split.
    + destruct state; exact Hfull.
    + apply (isValid_false_of_error _ msg_duration).
      rewrite validate_errors. unfold spec_errors.
      assert (Hd' : (sessionDuration (setSessionDuration d state) <= 0)%Z)
        by (destruct state; exact Hd).
      rewrite (bool_decide_eq_true_2 _ Hd').
      rewrite !in_app_iff. do 3 right. left. simpl. tauto.
Qed.

Lemma isValid_iff_configured_in_range_not_conversely :
  isFullyConfigured scenario_B = true
  /\ isFullyConfigured (setSessionDuration 0 scenario_B) = true
  /\ isValid (validateConfiguration (setSessionDuration 0 scenario_B))
     = false.
Proof.
  assert (Hvalid : isValid (validateConfiguration scenario_B) = true)
    by reflexivity.
  pose proof (proj1 (proj2 (isValid_iff_configured_in_range scenario_B))
                Hvalid) as Hfull.
  split; [ exact Hfull | ].
  apply (proj2 (proj2 (isValid_iff_configured_in_range scenario_B))
           Hfull 0%Z).
  lia.
Defined.

(** X4. [validateConfiguration()] reads six fields only: a setter of any
    of the thirteen other fields leaves its whole result as it was. *)
Theorem validateConfiguration_frame (p : Entry)
  (state : ConfigurationState) :
  ~ In (key_of p)
      [ K_openapiHost; K_openapiCredential; K_authMethod; K_avatarId;
        K_sessionDuration; K_modeType ] ->
  validateConfiguration (setter p state) = validateConfiguration state.
Proof.
  intros H.
  destruct state, p; first [ reflexivity | exfalso; apply H; simpl; tauto ].
Qed.

Lemma validateConfiguration_frame_voiceId :
  validateConfiguration (setVoiceId "v" scenario_B)
  = validateConfiguration scenario_B.
Proof.
  apply (validateConfiguration_frame (P_voiceId "v") scenario_B).
  simpl. intuition discriminate.
Defined.

(** X5. [getSessionOptions()] never reads the API host, the credential,
    the auth method or the four media settings: changing any of them
    leaves the payload as it was, so the credential cannot reach it. *)
Theorem getSessionOptions_frame (p : Entry) (state : ConfigurationState) :
  In (key_of p)
     [ K_openapiHost; K_openapiCredential; K_authMethod; K_videoEnabled;
       K_audioEnabled; K_videoQuality; K_audioQuality ] ->
  getSessionOptions (setter p state) = getSessionOptions state.
Proof.
  intros H.
  destruct state, p; first [ reflexivity | exfalso; simpl in H ];
    intuition discriminate.
Qed.

Lemma getSessionOptions_frame_credential :
  getSessionOptions (setOpenapiCredential "secret" scenario_D)
  = getSessionOptions scenario_D.
Proof.
  apply (getSessionOptions_frame (P_openapiCredential "secret") scenario_D).
  simpl. tauto.
Defined.

(** X6. Whatever the state, the errors come in the order host, credential,
    avatar, duration, mode type, each message at most once: the list is
    the fixed list of five with some entries left out. *)
Theorem validateConfiguration_errors_ordered (state : ConfigurationState) :
  sublist (errors (validateConfiguration state))
    [ "OpenAPI host is required";
      match authMethod state with
      | token => "OpenAPI token is required"
      | apiKey => "API key is required"
      end;
      "Avatar ID is required";
      "Session duration must be greater than 0";
      "Mode type must be between 1 and 3" ]
  /\ NoDup (errors (validateConfiguration state)).
Proof.
  rewrite validate_errors. unfold spec_errors, rule.
  destruct (authMethod state);
    destruct (String.eqb (openapiHost state) "");
    destruct (String.eqb (openapiCredential state) "");
    destruct (String.eqb (avatarId state) "");
    destruct (bool_decide (sessionDuration state <= 0)%Z);
    destruct (bool_decide (modeType state < 1 \/ 3 < modeType state)%Z);
    (split;
     [ simpl; repeat constructor
     | apply (bool_decide_unpack _); vm_compute; reflexivity ]).
Qed.

(** X7. After [setSessionDuration(d)] the duration message is reported
    exactly when [d] is zero or negative, and the other messages are those
    reported before the call: correcting the duration clears its flag and
    nothing else. *)
Theorem setSessionDuration_flag (d : Z) (state : ConfigurationState) :
  (In "Session duration must be greater than 0"
      (errors (validateConfiguration (setSessionDuration d state))) <->
     (d <= 0)%Z)
  /\ without_duration
       (errors (validateConfiguration (setSessionDuration d state)))
     = without_duration (errors (validateConfiguration state)).
Proof.
  rewrite !validate_errors. unfold spec_errors, rule.
  destruct state as [sp oh oc am ai vi ki sd mt la sm et bu vu vp ve ae vq aq].
  cbn [setSessionDuration set_ fold_left assign openapiHost
       openapiCredential authMethod avatarId sessionDuration modeType].
  destruct (decide (d <= 0)%Z) as [Hd | Hd];
    [ rewrite (bool_decide_eq_true_2 _ Hd)
    | rewrite (bool_decide_eq_false_2 _ Hd) ];
    destruct am;
    destruct (String.eqb oh "");
    destruct (String.eqb oc "");
    destruct (String.eqb ai "");
    destruct (bool_decide (sd <= 0)%Z);
    destruct (bool_decide (mt < 1 \/ 3 < mt)%Z);
    (split; [ simpl; intuition (try discriminate; try lia) | reflexivity ]).
Qed.

(** X8. The auth method only words the credential message: switching it
    changes neither the verdict nor the number of errors, and changes
    nothing at all once a credential is entered. *)
Theorem setAuthMethod_wording_only (m : AuthMethod)
  (state : ConfigurationState) :
  isValid (validateConfiguration (setAuthMethod m state))
  = isValid (validateConfiguration state)
  /\ length (errors (validateConfiguration (setAuthMethod m state)))
     = length (errors (validateConfiguration state))
  /\ (openapiCredential state <> "" ->
      validateConfiguration (setAuthMethod m state)
      = validateConfiguration state).
Proof.
  destruct state as [sp oh oc am ai vi ki sd mt la sm et bu vu vp ve ae vq aq].
  assert (Hlen :
    length (errors (validateConfiguration
      (setAuthMethod m
         (mkState sp oh oc am ai vi ki sd mt la sm et bu vu vp ve ae vq aq))))
    = length (errors (validateConfiguration
         (mkState sp oh oc am ai vi ki sd mt la sm et bu vu vp ve ae vq aq)))).
  { rewrite !validate_errors. unfold spec_errors, rule.
    cbn [setAuthMethod set_ fold_left assign openapiHost
         openapiCredential authMethod avatarId sessionDuration modeType].
    rewrite !length_app.
    destruct (String.eqb oc ""); reflexivity. }
  split; [ now rewrite !validate_isValid, Hlen | ].
  split; [ exact Hlen | ].
  intros Hc. cbn [openapiCredential] in Hc.
  unfold validateConfiguration.
  cbn [setAuthMethod set_ fold_left assign openapiHost
       openapiCredential authMethod avatarId sessionDuration modeType].
  apply truthy_true_iff in Hc. rewrite Hc. reflexivity.
Qed.

Lemma setAuthMethod_wording_only_scenario_B :
  validateConfiguration (setAuthMethod apiKey scenario_B)
  = validateConfiguration scenario_B.
Proof.
  apply (proj2 (proj2 (setAuthMethod_wording_only apiKey scenario_B))).
  simpl. discriminate.
Defined.

(* ===================================================================== *)
(** ** The initial state *)
(* ===================================================================== *)

Lemma env_or_unset (x : option string) (d : string) :
  unset x -> env_or x d = d.
Proof. intros [-> | ->]; reflexivity. Qed.

Lemma env_or_nonempty (x : option string) (d : string) :
  d <> "" -> env_or x d <> "".
Proof.
  intros Hd. destruct x as [[| c s] |]; simpl; [ exact Hd | | exact Hd ].
  discriminate.
Qed.

(** X9. A build-time variable that is set to the empty string counts as
    unset, and so does a mode type of zero: when every variable is unset
    in this sense, the store starts in the state [resetToDefaults()]
    produces. *)
Theorem initialState_fallbacks (env : Env) (state : ConfigurationState) :
  VITE_STREAM_TYPE env = None ->
  unset (VITE_OPENAPI_HOST env) -> unset (VITE_OPENAPI_TOKEN env) ->
  unset (VITE_AVATAR_ID env) -> unset (VITE_VOICE_ID env) ->
  (VITE_MODE_TYPE env = None \/ VITE_MODE_TYPE env = Some 0%Z) ->
  unset (VITE_LANGUAGE env) -> unset (VITE_BACKGROUND_URL env) ->
  unset (VITE_VOICE_URL env) ->
  initialState env = resetToDefaults state.
Proof.
  intros Hs Hh Ht Ha Hv Hm Hl Hb Hu.
  rewrite resetToDefaults_defaults. unfold initialState, defaults.
  rewrite Hs, !env_or_unset by assumption.
  destruct Hm as [-> | ->]; reflexivity.
Qed.

Lemma initialState_fallbacks_empty_env :
  initialState empty_env = resetToDefaults scenario_B.
Proof.
  apply (initialState_fallbacks empty_env scenario_B);
    first [ reflexivity | right; reflexivity ].
Defined.

(** X10. Whatever the build-time variables hold, the store starts with a
    non-empty language, a mode type other than zero, a duration of ten
    minutes and token authentication; so its payload carries [language],
    and the validator does not report the duration. *)
Theorem initialState_invariants (env : Env) :
  language (initialState env) <> ""
  /\ modeType (initialState env) <> 0%Z
  /\ sessionDuration (initialState env) = 10%Z
  /\ authMethod (initialState env) = token
  /\ obj_get "language" (json_entries (getSessionOptions (initialState env)))
     = Some (JsString (language (initialState env)))
  /\ ~ In "Session duration must be greater than 0"
         (errors (validateConfiguration (initialState env))).
Proof.
  assert (Hl : language (initialState env) <> "")
    by (apply env_or_nonempty; discriminate).
  split; [ exact Hl | ].
  split.
  { simpl. destruct (VITE_MODE_TYPE env) as [n |]; [ | discriminate ].
    destruct (Z.eqb_spec n 0); [ discriminate | assumption ]. }
  split; [ reflexivity | ]. split; [ reflexivity | ].
  split.
  - rewrite obj_get_json_entries
      by (rewrite getSessionOptions_keys; exact payload_keys_NoDup).
    cbn [getSessionOptions obj_get String.eqb Ascii.eqb Bool.eqb].
    simpl obj_get.
    now rewrite (or_undefined_nonempty _ Hl).
  - rewrite validate_errors. unfold spec_errors, rule.
    rewrite !in_app_iff.
    destruct (authMethod (initialState env));
      destruct (String.eqb (openapiHost (initialState env)) "");
      destruct (String.eqb (openapiCredential (initialState env)) "");
      destruct (String.eqb (avatarId (initialState env)) "");
      destruct (bool_decide
                  (modeType (initialState env) < 1
                   \/ 3 < modeType (initialState env))%Z);
      simpl; intuition discriminate.
Qed.

(* ===================================================================== *)
(** ** Scene mode and end-to-end type *)
(* ===================================================================== *)

(** X11. The payload's [e2e_type] follows the stored [e2eType] alone: no
    scene mode change touches it, so a store holding [openai] keeps sending
    [e2e_type: "openai"] under scene mode [meeting] or the default, where
    the panel no longer shows the end-to-end select. *)
Theorem e2e_type_not_gated (m : option SceneMode)
  (state : ConfigurationState) :
  obj_get "e2e_type" (getSessionOptions (setSceneMode m state))
  = obj_get "e2e_type" (getSessionOptions state)
  /\ (e2eType state = Some openai ->
      obj_get "e2e_type"
        (json_entries (getSessionOptions (setSceneMode m state)))
      = Some (JsString "openai")
      /\ (m <> Some fast_dialogue ->
          e2eTypeSelectShown (setSceneMode m state) = false)).
Proof.
  split; [ destruct state; reflexivity | ].
  intros He.
  split.
  - rewrite obj_get_json_entries
      by (rewrite getSessionOptions_keys; exact payload_keys_NoDup).
    destruct state; simpl in He; subst. reflexivity.
  - intros Hm. destruct state. destruct m as [[] |];
      first [ reflexivity | now elim Hm ].
Qed.

Lemma e2e_type_not_gated_meeting :
  obj_get "e2e_type"
    (json_entries (getSessionOptions (setSceneMode (Some meeting) with_openai)))
  = Some (JsString "openai")
  /\ e2eTypeSelectShown (setSceneMode (Some meeting) with_openai) = false.
Proof.
  destruct (proj2 (e2e_type_not_gated (Some meeting) with_openai) eq_refl)
    as [Hsent Hshown].
  split; [ exact Hsent | apply Hshown; discriminate ].
Defined.

(* ===================================================================== *)
(** ** The panel *)
(* ===================================================================== *)

(** [Array.prototype.find] returns the first element that passes. *)
Lemma find_first {A : Type} (f : A -> bool) (l : list A) (a : A) :
  List.find f l = Some a <->
    exists pre post,
      l = (pre ++ a :: post)%list
      /\ Forall (fun b => f b = false) pre /\ f a = true.
Proof.
  induction l as [| x l IH]; simpl.
  - split; [ discriminate | ].
    intros (pre & post & H & _). destruct pre; discriminate H.
  - destruct (f x) eqn:Hx.
    + split.
      * intros [= ->]. exists [], l. repeat split; [ constructor | exact Hx ].
      * intros (pre & post & H & Hpre & Ha).
        destruct pre as [| y pre]; simpl in H.
        -- now injection H as -> _.
        -- injection H as -> _. apply Forall_cons in Hpre as [Hy _].
           congruence.
    + rewrite IH. split.
      * intros (pre & post & -> & Hpre & Ha).
        exists (x :: pre), post. repeat split; [ | exact Ha ].
        now constructor.
      * intros (pre & post & H & Hpre & Ha).
        destruct pre as [| y pre]; simpl in H.
        -- injection H as -> _. congruence.
        -- injection H as -> ->. apply Forall_cons in Hpre as [_ Hpre].
           now exists pre, post.
Qed.

Lemma find_none {A : Type} (f : A -> bool) (l : list A) :
  (forall a, In a l -> f a = false) -> List.find f l = None.
Proof.
  induction l as [| x l IH]; simpl; [ reflexivity | ].
  intros H. rewrite (H x (or_introl eq_refl)). apply IH.
  intros a Ha. apply H. now right.
Qed.

(** X12. The background URL is switched off exactly when the first avatar
    of the list that bears the store's avatar id has type 2 and comes from
    source 3 or 4; later avatars with the same id do not count, and an
    avatar id that is not in the list (an empty list, a list still
    loading) never switches it off. *)
Theorem isBackgroundUrlDisabled_first_match (avatars : list Avatar)
  (avatarId : string) :
  (isBackgroundUrlDisabled avatars avatarId = true <->
     exists pre a post,
       avatars = (pre ++ a :: post)%list
       /\ Forall (fun b => avatar_id b <> avatarId) pre
       /\ avatar_id a = avatarId
       /\ avatar_type a = 2%Z
       /\ (avatar_from a = 3%Z \/ avatar_from a = 4%Z))
  /\ ((forall a, In a avatars -> avatar_id a <> avatarId) ->
      isBackgroundUrlDisabled avatars avatarId = false).
Proof.
  unfold isBackgroundUrlDisabled. split.
  - destruct (List.find _ avatars) as [a |] eqn:Hfind; simpl.
    + apply find_first in Hfind as (pre & post & -> & Hpre & Ha).
      apply String.eqb_eq in Ha.
      assert (Hpre' : Forall (fun b => avatar_id b <> avatarId) pre).
      { eapply Forall_impl; [ exact Hpre | ].
        intros b Hb. now apply String.eqb_neq. }
      rewrite andb_true_iff, orb_true_iff, !Z.eqb_eq. split.
      * intros [Ht Hf]. exists pre, a, post. tauto.
      * intros (pre2 & a2 & post2 & Heq & Hpre2 & Ha2 & Ht & Hf).
        assert (Hsame : List.find
                  (fun avatar => String.eqb (avatar_id avatar) avatarId)
                  (pre2 ++ a2 :: post2) = Some a2).
        { apply find_first. exists pre2, post2. repeat split.
          - eapply Forall_impl; [ exact Hpre2 | ].
            intros b Hb. now apply String.eqb_neq.
          - now apply String.eqb_eq. }
        rewrite <- Heq in Hsame.
        assert (Hfind : List.find
                  (fun avatar => String.eqb (avatar_id avatar) avatarId)
                  (pre ++ a :: post) = Some a).
        { apply find_first. exists pre, post. repeat split;
            [ exact Hpre | now apply String.eqb_eq ]. }
        rewrite Hfind in Hsame. injection Hsame as ->. tauto.
    + split; [ discriminate | ].
      intros (pre & a & post & -> & Hpre & Ha & _).
      assert (Hsome : List.find
                (fun avatar => String.eqb (avatar_id avatar) avatarId)
                (pre ++ a :: post) = Some a).
      { apply find_first. exists pre, post. repeat split.
        - eapply Forall_impl; [ exact Hpre | ].
          intros b Hb. now apply String.eqb_neq.
        - now apply String.eqb_eq. }
      congruence.
  - intros Hnone. rewrite find_none; [ reflexivity | ].
    intros a Ha. apply String.eqb_neq. now apply Hnone.
Qed.

Lemma isBackgroundUrlDisabled_not_listed :
  isBackgroundUrlDisabled two_avatars "missing" = false.
Proof.
  apply (proj2 (isBackgroundUrlDisabled_first_match two_avatars "missing")).
  simpl. intros a [<- | [<- | [<- | []]]]; discriminate.
Defined.

(** X13. [handleStartStreaming] calls [startStreaming()] exactly when the
    store is fully configured and the panel holds no validation error.
    When it does, it first raises [isStarting] and always lowers it last,
    however the call ends; it shows at most one error per click; and a
    click on the enabled start button always reaches the call. *)
Theorem handleStartStreaming_guards (state : ConfigurationState)
  (validationErrors : list string) (result : StartResult) :
  (In StartStreaming (handleStartStreaming state validationErrors result)
   <-> isFullyConfigured state = true /\ validationErrors = [])
  /\ (In StartStreaming (handleStartStreaming state validationErrors result)
      -> exists shown,
           handleStartStreaming state validationErrors result
           = (SetIsStarting true :: StartStreaming :: shown
              ++ [SetIsStarting false])%list
           /\ (length shown <= 1)%nat)
  /\ (forall m1 m2,
        In (ShowError m1) (handleStartStreaming state validationErrors result)
        -> In (ShowError m2)
             (handleStartStreaming state validationErrors result)
        -> m1 = m2)
  /\ (startButtonDisabled state validationErrors false = false ->
      In StartStreaming (handleStartStreaming state validationErrors result)).
Proof.
  unfold handleStartStreaming, startButtonDisabled.
  destruct (isFullyConfigured state); simpl.
  - destruct validationErrors as [| e errs]; simpl.
    + split; [ | split; [ | split ] ].
      * split; [ tauto | intros _; tauto ].
      * intros _. destruct result; eexists; split;
          first [ reflexivity | simpl; lia ].
      * intros m1 m2; destruct result; simpl;
          intuition (try discriminate; congruence).
      * tauto.
    + split; [ | split; [ | split ] ].
      * split; [ intuition discriminate | intros [_ H]; discriminate H ].
      * intuition discriminate.
      * intros m1 m2; intuition congruence.
      * discriminate.
  - split; [ | split; [ | split ] ].
    + split; [ intuition discriminate | intros [H _]; discriminate H ].
    + intuition discriminate.
    + intros m1 m2; intuition congruence.
    + discriminate.
Qed.

Lemma handleStartStreaming_guards_scenario_B :
  In StartStreaming
     (handleStartStreaming scenario_B [] (RejectedError "timeout")).
Proof.
  apply (proj2 (proj2 (proj2
           (handleStartStreaming_guards scenario_B []
              (RejectedError "timeout"))))).
  reflexivity.
Defined.

Lemma validationEffect_skip (p : Entry) (state : ConfigurationState)
  (held : list string) :
  ~ In (key_of p)
      [ K_openapiCredential; K_openapiHost; K_avatarId; K_voiceId;
        K_knowledgeId ] ->
  validationEffect state (setter p state) held = held.
Proof.
  intros Hk. unfold validationEffect, validation_deps_changed.
  destruct state, p; try (exfalso; apply Hk; simpl; tauto);
    simpl; rewrite !String.eqb_refl; reflexivity.
Qed.

Lemma eqb_changed_false (a b : string) :
  negb (String.eqb a b) = false -> a = b.
Proof.
  intros H. apply negb_false_iff in H. now apply String.eqb_eq.
Qed.

(** X14. The panel's validation effect runs again only when the
    credential, the host, the avatar id, the voice id or the knowledge id
    changes: a setter of any other field leaves the errors the panel holds
    as they are.  As long as the auth method, the duration and the mode
    type are not written, the errors held stay those the validator gives
    for the current store. *)
Theorem validationEffect_refresh (p : Entry) (state : ConfigurationState)
  (held : list string) :
  (~ In (key_of p)
       [ K_openapiCredential; K_openapiHost; K_avatarId; K_voiceId;
         K_knowledgeId ] ->
   validationEffect state (setter p state) held = held)
  /\ (held = errors (validateConfiguration state) ->
      ~ In (key_of p) [ K_authMethod; K_sessionDuration; K_modeType ] ->
      validationEffect state (setter p state) held
      = errors (validateConfiguration (setter p state))).
Proof.
  split; [ apply validationEffect_skip | ].
  intros -> Hk. unfold validationEffect, validation_deps_changed.
  destruct state, p; try (exfalso; apply Hk; simpl; tauto);
    simpl; rewrite ?String.eqb_refl; simpl; rewrite ?andb_true_r;
    try reflexivity;
    match goal with
    | |- context [ negb (String.eqb ?a ?b) ] =>
        destruct (negb (String.eqb a b)) eqn:E;
        [ reflexivity | apply eqb_changed_false in E; subst; reflexivity ]
    end.
Qed.

Lemma validationEffect_refresh_sessionDuration :
  validationEffect scenario_B (setSessionDuration 0 scenario_B) [] = []
  /\ validationEffect scenario_B (setAvatarId "" scenario_B)
       (errors (validateConfiguration scenario_B))
     = [ "Avatar ID is required" ].
Proof.
  split.
  - apply (proj1 (validationEffect_refresh (P_sessionDuration 0)
                    scenario_B [])).
    simpl. intuition discriminate.
  - apply (proj2 (validationEffect_refresh (P_avatarId "") scenario_B
                    (errors (validateConfiguration scenario_B))));
      [ reflexivity | simpl; intuition discriminate ].
Defined.

(** X15. The duration is not among the effect's dependencies.  So when a
    valid store has its duration set to zero or below, the panel still
    holds the empty error list of its first render: the validator rejects
    the store, yet the start button stays enabled and a click calls
    [startStreaming()]. *)
Theorem stale_errors_allow_start (d : Z) (state : ConfigurationState)
  (result : StartResult) :
  isValid (validateConfiguration state) = true ->
  (d <= 0)%Z ->
  validationEffect state (setSessionDuration d state)
    (validationErrors_on_mount state) = []
  /\ isValid (validateConfiguration (setSessionDuration d state)) = false
  /\ startButtonDisabled (setSessionDuration d state) [] false = false
  /\ In StartStreaming
       (handleStartStreaming (setSessionDuration d state) [] result).
Proof.
  intros Hvalid Hd.
  pose proof (proj1 (isValid_spec state) Hvalid) as (Hconf & _ & _).
  apply isFullyConfigured_nonempty in Hconf.
  assert (Hfull : isFullyConfigured (setSessionDuration d state) = true)
    by (destruct state; exact Hconf).
  split.
  - change (setSessionDuration d state)
      with (setter (P_sessionDuration d) state).
    rewrite validationEffect_skip by (simpl; intuition discriminate).
    unfold validationErrors_on_mount.
    rewrite validate_isValid, Nat.eqb_eq in Hvalid.
    now apply length_zero_iff_nil.
  - split.
    + apply (isValid_false_of_error _ msg_duration).
      rewrite validate_errors. unfold spec_errors.
      assert (Hd' : (sessionDuration (setSessionDuration d state) <= 0)%Z)
        by (destruct state; exact Hd).
      rewrite (bool_decide_eq_true_2 _ Hd').
      rewrite !in_app_iff. do 3 right. left. simpl. tauto.
    + unfold startButtonDisabled, handleStartStreaming.
      rewrite Hfull. simpl. split; [ reflexivity | tauto ].
Qed.

Lemma stale_errors_allow_start_scenario_B :
  isValid (validateConfiguration (setSessionDuration 0 scenario_B)) = false
  /\ In StartStreaming
       (handleStartStreaming (setSessionDuration 0 scenario_B)
          (validationEffect scenario_B (setSessionDuration 0 scenario_B)
             (validationErrors_on_mount scenario_B))
          Resolved).
Proof.
  assert (Hvalid : isValid (validateConfiguration scenario_B) = true)
    by reflexivity.
  assert (Hd : (0 <= 0)%Z) by lia.
  destruct (stale_errors_allow_start 0 scenario_B Resolved Hvalid Hd)
    as (Hheld & Hinvalid & _ & Hstart).
  split; [ exact Hinvalid | ]. rewrite Hheld. exact Hstart.
Defined.

(** X16. Whatever string the scene mode select hands over, the payload
    gets [scene_mode] only for the two known names, with that name, and
    loses it for any other value; the handler leaves [e2eType] alone.
    The end-to-end select does the same with its one name. *)
Theorem select_handlers_payload (value : string)
  (state : ConfigurationState) :
  (value = "fast_dialogue" \/ value = "meeting" ->
   obj_get "scene_mode"
     (json_entries (getSessionOptions (onSceneModeChange value state)))
   = Some (JsString value))
  /\ (value <> "fast_dialogue" -> value <> "meeting" ->
      obj_get "scene_mode"
        (json_entries (getSessionOptions (onSceneModeChange value state)))
      = None)
  /\ e2eType (onSceneModeChange value state) = e2eType state
  /\ (value = "openai" ->
      obj_get "e2e_type"
        (json_entries (getSessionOptions (onE2eTypeChange value state)))
      = Some (JsString "openai"))
  /\ (value <> "openai" ->
      obj_get "e2e_type"
        (json_entries (getSessionOptions (onE2eTypeChange value state)))
      = None).
Proof.
  rewrite !obj_get_json_entries
    by (rewrite getSessionOptions_keys; exact payload_keys_NoDup).
  unfold onSceneModeChange, onE2eTypeChange.
  split; [ | split; [ | split; [ | split ] ] ].
  - intros [-> | ->]; destruct state; reflexivity.
  - intros H1 H2. apply String.eqb_neq in H1, H2. rewrite H1, H2.
    destruct state; reflexivity.
  - destruct state; reflexivity.
  - intros ->. destruct state; reflexivity.
  - intros H. apply String.eqb_neq in H. rewrite H.
    destruct state; reflexivity.
Qed.

Lemma select_handlers_payload_unknown :
  obj_get "scene_mode"
    (json_entries (getSessionOptions (onSceneModeChange "karaoke" with_openai)))
  = None.
Proof.
  apply (proj1 (proj2 (select_handlers_payload "karaoke" with_openai)));
    discriminate.
Defined.

(** X17. After [resetToDefaults()] the store is unconfigured: the three
    getters are false, the validator reports the missing host, token and
    avatar, in that order, and a click on start calls nothing but one
    error notice, whatever errors the panel holds. *)
Theorem resetToDefaults_unconfigured (state : ConfigurationState)
  (held : list string) (result : StartResult) :
  isApiConfigured (resetToDefaults state) = false
  /\ isAvatarConfigured (resetToDefaults state) = false
  /\ isFullyConfigured (resetToDefaults state) = false
  /\ errors (validateConfiguration (resetToDefaults state))
     = [ "OpenAPI host is required"; "OpenAPI token is required";
         "Avatar ID is required" ]
  /\ handleStartStreaming (resetToDefaults state) held result
     = [ ShowError "Please configure all required settings before starting" ]
  /\ startButtonDisabled (resetToDefaults state) held false = true.
Proof.
  rewrite !resetToDefaults_defaults. repeat split; reflexivity.
Qed.

(** X18. When the panel holds the validator's current errors, a click
    starts streaming exactly when the store is valid; and on a fully
    configured but invalid store the one notice shown can only name the
    duration, the mode type, or both. *)
Theorem handleStartStreaming_fresh (state : ConfigurationState)
  (result : StartResult) :
  (In StartStreaming
      (handleStartStreaming state (errors (validateConfiguration state))
         result)
   <-> isValid (validateConfiguration state) = true)
  /\ (isFullyConfigured state = true ->
      isValid (validateConfiguration state) = false ->
      exists message,
        handleStartStreaming state (errors (validateConfiguration state))
          result
        = [ ShowError message ]
        /\ In message
             [ "Configuration errors: Session duration must be greater than 0";
               "Configuration errors: Mode type must be between 1 and 3";
               "Configuration errors: Session duration must be greater than 0, Mode type must be between 1 and 3" ]).
Proof.
  split.
  - rewrite validate_isValid, Nat.eqb_eq, length_zero_iff_nil.
    unfold handleStartStreaming.
    remember (errors (validateConfiguration state)) as errs eqn:Herrs.
    destruct (isFullyConfigured state) eqn:Hfull; simpl.
    + destruct errs as [| e l]; simpl.
      * split; [ reflexivity | tauto ].
      * split; [ intuition discriminate | discriminate ].
    + split; [ intuition discriminate | ].
      intros Hnil.
      assert (Hvalid : isValid (validateConfiguration state) = true)
        by (rewrite validate_isValid, <- Herrs, Hnil; reflexivity).
      apply isValid_spec in Hvalid as (Hconf & _).
      apply isFullyConfigured_nonempty in Hconf. congruence.
  - intros Hfull Hinvalid.
    unfold handleStartStreaming. rewrite Hfull.
    cbn [negb].
    rewrite validate_isValid in Hinvalid. revert Hinvalid.
    apply isFullyConfigured_nonempty in Hfull as (Hh & Hc & Ha).
    rewrite validate_errors. unfold spec_errors, rule.
    apply String.eqb_neq in Hh, Hc, Ha. rewrite Hh, Hc, Ha.
    destruct (bool_decide (sessionDuration state <= 0)%Z);
      destruct (bool_decide
                  (modeType state < 1 \/ 3 < modeType state)%Z);
      simpl; intros Hne; try discriminate Hne;
      eexists; (split; [ reflexivity | simpl; tauto ]).
Qed.

Lemma handleStartStreaming_fresh_mode_five :
  exists message,
    handleStartStreaming (setModeType 5 scenario_B)
      (errors (validateConfiguration (setModeType 5 scenario_B))) Resolved
    = [ ShowError message ]
    /\ In message
         [ "Configuration errors: Session duration must be greater than 0";
           "Configuration errors: Mode type must be between 1 and 3";
           "Configuration errors: Session duration must be greater than 0, Mode type must be between 1 and 3" ].
Proof.
  apply (proj2 (handleStartStreaming_fresh (setModeType 5 scenario_B)
                  Resolved)); reflexivity.
Defined.

(** X19. Each payload entry is fed by one store field: a setter changes
    no entry of the payload other than the one its field feeds, and the
    setters of the host, the credential, the auth method and the media
    settings change none. *)
Theorem getSessionOptions_entry_frame (p : Entry) (name : string)
  (state : ConfigurationState) :
  payload_key (key_of p) <> Some name ->
  obj_get name (getSessionOptions (setter p state))
  = obj_get name (getSessionOptions state).
Proof.
  intros H.
  destruct state, p; try reflexivity; simpl in H;
    unfold getSessionOptions; simpl;
    repeat match goal with
           | |- context [ String.eqb name ?k ] =>
               destruct (String.eqb_spec name k) as [-> | _]
           end;
    first [ reflexivity | exfalso; apply H; reflexivity ].
Qed.

Lemma getSessionOptions_entry_frame_voiceId :
  obj_get "avatar_id" (getSessionOptions (setVoiceId "v" scenario_D))
  = obj_get "avatar_id" (getSessionOptions scenario_D).
Proof.
  apply (getSessionOptions_entry_frame (P_voiceId "v") "avatar_id"
           scenario_D).
  simpl. discriminate.
Defined.
